(** * gooddata-typings: the narrowing predicates and the event-name accessor

    The library is a schema package; its only executable code is a family of
    type guards ([AFM], [VisualizationObject], the embedding protocol of the
    insight editor and of the dashboards) and [getEventType].  This file
    embeds that code over a small model of JavaScript values and proves what
    the guards do on every input.

    Layout: the value model and the operators the guards use; the guards,
    one module per TypeScript namespace; tables naming the guards; theorems. *)

From Stdlib Require Import List String Bool ZArith.
From Stdlib Require Import SpecFloat DecimalString.
Import ListNotations.
Local Open Scope string_scope.
Local Open Scope list_scope.

(* ================================================================== *)
(** ** JavaScript values *)
(* ================================================================== *)

(** The values a guard can be handed: what a JSON document or a structured
    clone of a [postMessage] payload holds, and [undefined].  An object is
    the list of its own enumerable properties in insertion order; a lookup
    takes the first entry of a key.  Numbers are IEEE 754 doubles, in the
    standard library's specification of them.  Functions, symbols and
    accessors are not values of this model. *)
#[warnings="-register-all"] Inductive JsValue : Type :=
| JUndefined
| JNull
| JBool (b : bool)
| JNum (n : spec_float)
| JStr (s : string)
| JArr (elems : list JsValue)
| JObj (props : list (string * JsValue)).

Definition Props : Type := list (string * JsValue).

(** The one exception the guards can meet: reading a property of [null] or
    [undefined]. *)
Inductive JsError : Type :=
| TypeError.

(** Outcome of evaluating an expression: a value, or a raised exception. *)
Inductive result (A : Type) : Type :=
| Ok (a : A)
| Throw (e : JsError).

Arguments Ok {A} a.
Arguments Throw {A} e.

Definition bind {A B : Type} (r : result A) (k : A -> result B) : result B :=
  match r with
  | Ok a => k a
  | Throw e => Throw e
  end.

Notation "x <- e ;; k" := (bind e (fun x => k))
  (at level 61, e at next level, right associativity).

(** ** Operators *)

(** [ToBoolean]: the falsy values are [undefined], [null], [false], [+0],
    [-0], [NaN] and the empty string. *)
Definition truthy (v : JsValue) : bool :=
  match v with
  | JUndefined | JNull => false
  | JBool b => b
  | JNum (S754_zero _) | JNum S754_nan => false
  | JNum _ => true
  | JStr s => negb (String.eqb s "")
  | JArr _ | JObj _ => true
  end.

(** [!!v] *)
Definition toBoolean (v : JsValue) : bool := truthy v.

(** [v === undefined] and [v !== undefined] *)
Definition isUndefined (v : JsValue) : bool :=
  match v with
  | JUndefined => true
  | _ => false
  end.

Definition notUndefined (v : JsValue) : bool := negb (isUndefined v).

(** [v === s] for a string literal [s]: no coercion, so only a string
    value with the same characters is equal. *)
Definition strictEqualsString (v : JsValue) (s : string) : bool :=
  match v with
  | JStr t => String.eqb t s
  | _ => false
  end.

(** [a || b] on values *)
Definition orElse (a b : JsValue) : JsValue :=
  if truthy a then a else b.

Fixpoint lookup (k : string) (ps : Props) : option JsValue :=
  match ps with
  | [] => None
  | (k', v) :: rest => if String.eqb k' k then Some v else lookup k rest
  end.

(** A canonical array index: decimal digits with no leading zero. *)
Definition arrayIndex (k : string) : option nat :=
  match NilEmpty.uint_of_string k with
  | Some u =>
      let n := Nat.of_uint u in
      if String.eqb (NilEmpty.string_of_uint (Nat.to_uint n)) k
      then Some n else None
  | None => None
  end.

(** The double nearest to an integer (binary64: 53 bits of precision,
    exponents below 1024). *)
Definition number (z : Z) : spec_float :=
  binary_normalize 53 1024 z 0 false.

Definition numberOfNat (n : nat) : spec_float :=
  number (Z.of_nat n).

(** [v.k] / [v[k]]: the own property [k] of [v].  [null] and [undefined]
    have no properties and reading one raises; a missing property reads as
    [undefined]; booleans and numbers have no own properties; strings and
    arrays have their indices and [length].  Members inherited from the
    built-in prototypes are functions and are not modelled; no key read by
    this library names one. *)
Definition getProp (v : JsValue) (k : string) : result JsValue :=
  match v with
  | JUndefined | JNull => Throw TypeError
  | JBool _ | JNum _ => Ok JUndefined
  | JStr s =>
      if String.eqb k "length" then Ok (JNum (numberOfNat (String.length s)))
      else match arrayIndex k with
           | Some i =>
               match String.get i s with
               | Some c => Ok (JStr (String c EmptyString))
               | None => Ok JUndefined
               end
           | None => Ok JUndefined
           end
  | JArr elems =>
      if String.eqb k "length" then Ok (JNum (numberOfNat (List.length elems)))
      else match arrayIndex k with
           | Some i => Ok (nth i elems JUndefined)
           | None => Ok JUndefined
           end
  | JObj props =>
      match lookup k props with
      | Some w => Ok w
      | None => Ok JUndefined
      end
  end.

(** Modelled from the spec: [isEmpty] is imported from lodash
    ([import isEmpty = require('lodash/isEmpty')]) and its body is not in
    the sources.  The spec's "non-empty" is "has at least one declared
    property"; nullish values are empty.  On the remaining values the
    definition follows lodash's documentation: array-likes (arrays,
    strings) are empty when their length is 0, and any other value is empty
    when it has no own enumerable string-keyed property, which makes every
    boolean and number empty. *)
Definition isEmpty (v : JsValue) : bool :=
  match v with
  | JUndefined | JNull => true
  | JBool _ | JNum _ => true
  | JStr s => String.eqb s ""
  | JArr elems => match elems with [] => true | _ => false end
  | JObj props => match props with [] => true | _ => false end
  end.

(** Destructuring one level of an object pattern with a default,
    [{ k: pattern = dflt } = v]: the source must be object-coercible, the
    property is read, and the default replaces [undefined] only. *)
Definition destructure (v : JsValue) (k : string) (dflt : JsValue) : result JsValue :=
  w <- getProp v k ;;
  Ok (if isUndefined w then dflt else w).

(** [a && b] and [a || b] on boolean-valued expressions: the right operand
    is evaluated only when the left one does not decide. *)
Definition andAlso (a : result bool) (b : result bool) : result bool :=
  x <- a ;; if x then b else Ok false.

Definition orElseB (a : result bool) (b : result bool) : result bool :=
  x <- a ;; if x then Ok true else b.

(** [v.k !== undefined], the right operand of the [VisualizationObject]
    guards. *)
Definition definedIn (v : JsValue) (k : string) : result bool :=
  w <- getProp v k ;; Ok (notUndefined w).

(* ================================================================== *)
(** ** index.ts: namespace AFM *)
(* ================================================================== *)

Module AFM.

Definition isObjectUriQualifier (qualifier : JsValue) : result bool :=
  uri <- getProp qualifier "uri" ;; Ok (toBoolean uri).

Definition isSimpleMeasureDefinition (definition : JsValue) : result bool :=
  measure <- getProp definition "measure" ;; Ok (toBoolean measure).

Definition isPopMeasureDefinition (definition : JsValue) : result bool :=
  popMeasure <- getProp definition "popMeasure" ;; Ok (toBoolean popMeasure).

Definition isAttributeSortItem (sortItem : JsValue) : result bool :=
  item <- getProp sortItem "attributeSortItem" ;; Ok (toBoolean item).

Definition isMeasureSortItem (sortItem : JsValue) : result bool :=
  item <- getProp sortItem "measureSortItem" ;; Ok (toBoolean item).

Definition isMeasureLocatorItem (locator : JsValue) : result bool :=
  item <- getProp locator "measureLocatorItem" ;; Ok (toBoolean item).

Definition isPositiveAttributeFilter (filter : JsValue) : result bool :=
  f <- getProp filter "positiveAttributeFilter" ;; Ok (toBoolean f).

Definition isNegativeAttributeFilter (filter : JsValue) : result bool :=
  f <- getProp filter "negativeAttributeFilter" ;; Ok (toBoolean f).

(** Every guard of the namespace with the marker field it reads. *)
Definition guards : list (string * (JsValue -> result bool)) :=
  [ ("uri", isObjectUriQualifier);
    ("measure", isSimpleMeasureDefinition);
    ("popMeasure", isPopMeasureDefinition);
    ("attributeSortItem", isAttributeSortItem);
    ("measureSortItem", isMeasureSortItem);
    ("measureLocatorItem", isMeasureLocatorItem);
    ("positiveAttributeFilter", isPositiveAttributeFilter);
    ("negativeAttributeFilter", isNegativeAttributeFilter) ].

End AFM.

(* ================================================================== *)
(** ** VisualizationObject.ts: namespace VisualizationObject *)
(* ================================================================== *)

Module VisualizationObject.

Definition isMeasure (bucketItem : JsValue) : result bool :=
  andAlso (Ok (negb (isEmpty bucketItem))) (definedIn bucketItem "measure").

Definition isVisualizationAttribute (bucketItem : JsValue) : result bool :=
  andAlso (Ok (negb (isEmpty bucketItem)))
          (definedIn bucketItem "visualizationAttribute").

Definition isMeasureDefinition (definition : JsValue) : result bool :=
  andAlso (Ok (negb (isEmpty definition)))
          (definedIn definition "measureDefinition").

Definition isArithmeticMeasureDefinition (definition : JsValue) : result bool :=
  andAlso (Ok (negb (isEmpty definition)))
          (definedIn definition "arithmeticMeasure").

Definition isPopMeasureDefinition (definition : JsValue) : result bool :=
  andAlso (Ok (negb (isEmpty definition)))
          (definedIn definition "popMeasureDefinition").

Definition isPreviousPeriodMeasureDefinition (definition : JsValue) : result bool :=
  andAlso (Ok (negb (isEmpty definition)))
          (definedIn definition "previousPeriodMeasure").

Definition isAttributeFilter (filter : JsValue) : result bool :=
  andAlso (Ok (negb (isEmpty filter)))
          (orElseB (definedIn filter "positiveAttributeFilter")
                   (definedIn filter "negativeAttributeFilter")).

Definition isDateFilter (filter : JsValue) : result bool :=
  andAlso (Ok (negb (isEmpty filter)))
          (orElseB (definedIn filter "absoluteDateFilter")
                   (definedIn filter "relativeDateFilter")).

Definition isPositiveAttributeFilter (filter : JsValue) : result bool :=
  andAlso (Ok (negb (isEmpty filter)))
          (definedIn filter "positiveAttributeFilter").

Definition isMeasureValueFilter (filter : JsValue) : result bool :=
  andAlso (Ok (negb (isEmpty filter)))
          (definedIn filter "measureValueFilter").

Definition isAbsoluteDateFilter (filter : JsValue) : result bool :=
  andAlso (Ok (negb (isEmpty filter)))
          (definedIn filter "absoluteDateFilter").

Definition isRelativeDateFilter (filter : JsValue) : result bool :=
  andAlso (Ok (negb (isEmpty filter)))
          (definedIn filter "relativeDateFilter").

Definition isAttribute (bucketItem : JsValue) : result bool :=
  andAlso (Ok (negb (isEmpty bucketItem)))
          (definedIn bucketItem "visualizationAttribute").

Definition isLocalIdentifierQualifier (objectQualifier : JsValue) : result bool :=
  andAlso (Ok (negb (isEmpty objectQualifier)))
          (definedIn objectQualifier "localIdentifier").

Definition isComparisonCondition (condition : JsValue) : result bool :=
  andAlso (Ok (negb (isEmpty condition))) (definedIn condition "comparison").

Definition isRangeCondition (condition : JsValue) : result bool :=
  andAlso (Ok (negb (isEmpty condition))) (definedIn condition "range").

(** The guards that test one marker field, with that field. *)
Definition markerGuards : list (string * (JsValue -> result bool)) :=
  [ ("measure", isMeasure);
    ("visualizationAttribute", isVisualizationAttribute);
    ("measureDefinition", isMeasureDefinition);
    ("arithmeticMeasure", isArithmeticMeasureDefinition);
    ("popMeasureDefinition", isPopMeasureDefinition);
    ("previousPeriodMeasure", isPreviousPeriodMeasureDefinition);
    ("positiveAttributeFilter", isPositiveAttributeFilter);
    ("measureValueFilter", isMeasureValueFilter);
    ("absoluteDateFilter", isAbsoluteDateFilter);
    ("relativeDateFilter", isRelativeDateFilter);
    ("visualizationAttribute", isAttribute);
    ("localIdentifier", isLocalIdentifierQualifier);
    ("comparison", isComparisonCondition);
    ("range", isRangeCondition) ].

(** The guards that accept either of two marker fields. *)
Definition groupGuards : list ((string * string) * (JsValue -> result bool)) :=
  [ (("positiveAttributeFilter", "negativeAttributeFilter"), isAttributeFilter);
    (("absoluteDateFilter", "relativeDateFilter"), isDateFilter) ].

Definition guards : list (JsValue -> result bool) :=
  map snd markerGuards ++ map snd groupGuards.

End VisualizationObject.

(* ================================================================== *)
(** ** embedding/common.ts *)
(* ================================================================== *)

(** A TypeScript string enum is, at run time, the string of each member:
    every enum below comes with the function giving that wire value. *)

Inductive GdcProductName : Type :=
| ANALYTICAL_DESIGNER
| KPI_DASHBOARDS.

Definition GdcProductName_value (p : GdcProductName) : string :=
  match p with
  | ANALYTICAL_DESIGNER => "analyticalDesigner"
  | KPI_DASHBOARDS => "dashboards"
  end.

Inductive GdcEventType : Type :=
| AppCommandFailed.

Definition GdcEventType_value (e : GdcEventType) : string :=
  match e with
  | AppCommandFailed => "appCommandFailed"
  end.

Inductive GdcErrorType : Type :=
| InvalidCommand
| InvalidArgument
| InvalidState
| RuntimeError.

Definition GdcErrorType_value (e : GdcErrorType) : string :=
  match e with
  | InvalidCommand => "error:invalidCommand"
  | InvalidArgument => "error:invalidArgument"
  | InvalidState => "error:invalidState"
  | RuntimeError => "error:runtime"
  end.

(** [const { gdc: { event: { name = '' } = {} } = {} } = obj || {};
     return name;] *)
Definition getEventType (obj : JsValue) : result JsValue :=
  gdc <- destructure (orElse obj (JObj [])) "gdc" (JObj []) ;;
  event <- destructure gdc "event" (JObj []) ;;
  name <- destructure event "name" (JStr "") ;;
  Ok name.

(** [getEventType(obj) === literal], the body of every envelope guard. *)
Definition eventTypeIs (obj : JsValue) (literal : string) : result bool :=
  name <- getEventType obj ;; Ok (strictEqualsString name literal).

Definition isCommandFailedData (obj : JsValue) : result bool :=
  eventTypeIs obj (GdcEventType_value AppCommandFailed).

(* ================================================================== *)
(** ** embedding/ad.ts: namespace EmbeddedAnalyticalDesigner *)
(* ================================================================== *)

Module EmbeddedAnalyticalDesigner.

(** The members of the later revision of the file; the earlier one lacks
    [SetFilterContext] and [RemoveFilterContext]. *)
Inductive GdcAdCommandType : Type :=
| DrillableItems
| OpenInsight
| Save
| SaveAs
| Export
| Clear
| Undo
| Redo
| SetFilterContext
| RemoveFilterContext.

Definition GdcAdCommandType_value (c : GdcAdCommandType) : string :=
  match c with
  | DrillableItems => "drillableItems"
  | OpenInsight => "openInsight"
  | Save => "saveInsight"
  | SaveAs => "saveAsInsight"
  | Export => "exportInsight"
  | Clear => "clear"
  | Undo => "undo"
  | Redo => "redo"
  | SetFilterContext => "setFilterContext"
  | RemoveFilterContext => "removeFilterContext"
  end.

(** The earlier revision stops at [Drill] and has no [ClearFinished]. *)
Inductive GdcAdEventType : Type :=
| ListeningForDrillableItems
| NewInsightInitialized
| InsightOpened
| ClearFinished
| InsightSaved
| UndoFinished
| RedoFinished
| ExportFinished
| Drill
| FilterContextChanged
| SetFilterContextFinished
| RemoveFilterContextFinished.

Definition GdcAdEventType_value (e : GdcAdEventType) : string :=
  match e with
  | ListeningForDrillableItems => "listeningForDrillableItems"
  | NewInsightInitialized => "newInsightInitialized"
  | InsightOpened => "insightOpened"
  | ClearFinished => "clearFinished"
  | InsightSaved => "visualizationSaved"
  | UndoFinished => "undoFinished"
  | RedoFinished => "redoFinished"
  | ExportFinished => "exportInsightFinished"
  | Drill => "drill"
  | FilterContextChanged => "filterContextChanged"
  | SetFilterContextFinished => "setFilterContextFinished"
  | RemoveFilterContextFinished => "removeFilterContextFinished"
  end.

Definition isAdCommandFailedData (obj : JsValue) : result bool :=
  isCommandFailedData obj.

Definition isDrillableItemsCommandData (obj : JsValue) : result bool :=
  eventTypeIs obj (GdcAdCommandType_value DrillableItems).

Definition isOpenInsightCommandData (obj : JsValue) : result bool :=
  eventTypeIs obj (GdcAdCommandType_value OpenInsight).

Definition isClearCommandData (obj : JsValue) : result bool :=
  eventTypeIs obj (GdcAdCommandType_value Clear).

Definition isSaveInsightCommandData (obj : JsValue) : result bool :=
  eventTypeIs obj (GdcAdCommandType_value Save).

Definition isSaveAsInsightCommandData (obj : JsValue) : result bool :=
  eventTypeIs obj (GdcAdCommandType_value SaveAs).

Definition isExportInsightCommandData (obj : JsValue) : result bool :=
  eventTypeIs obj (GdcAdCommandType_value Export).

Definition isUndoCommandData (obj : JsValue) : result bool :=
  eventTypeIs obj (GdcAdCommandType_value Undo).

Definition isRedoCommandData (obj : JsValue) : result bool :=
  eventTypeIs obj (GdcAdCommandType_value Redo).

Definition isSetFilterContextCommandData (obj : JsValue) : result bool :=
  eventTypeIs obj (GdcAdCommandType_value SetFilterContext).

Definition isRemoveFilterContextCommandData (obj : JsValue) : result bool :=
  eventTypeIs obj (GdcAdCommandType_value RemoveFilterContext).

Definition isNewInsightInitializedData (obj : JsValue) : result bool :=
  eventTypeIs obj (GdcAdEventType_value NewInsightInitialized).

Definition isInsightOpenedData (obj : JsValue) : result bool :=
  eventTypeIs obj (GdcAdEventType_value InsightOpened).

Definition isClearFinishedData (obj : JsValue) : result bool :=
  eventTypeIs obj (GdcAdEventType_value ClearFinished).

Definition isInsightSavedData (obj : JsValue) : result bool :=
  eventTypeIs obj (GdcAdEventType_value InsightSaved).

Definition isExportFinishedData (obj : JsValue) : result bool :=
  eventTypeIs obj (GdcAdEventType_value ExportFinished).

Definition isUndoFinishedData (obj : JsValue) : result bool :=
  eventTypeIs obj (GdcAdEventType_value UndoFinished).

Definition isRedoFinishedData (obj : JsValue) : result bool :=
  eventTypeIs obj (GdcAdEventType_value RedoFinished).

(** Every guard of the namespace with the literal it compares the event
    name to. *)
Definition guards : list (string * (JsValue -> result bool)) :=
  [ ("appCommandFailed", isAdCommandFailedData);
    ("drillableItems", isDrillableItemsCommandData);
    ("openInsight", isOpenInsightCommandData);
    ("clear", isClearCommandData);
    ("saveInsight", isSaveInsightCommandData);
    ("saveAsInsight", isSaveAsInsightCommandData);
    ("exportInsight", isExportInsightCommandData);
    ("undo", isUndoCommandData);
    ("redo", isRedoCommandData);
    ("setFilterContext", isSetFilterContextCommandData);
    ("removeFilterContext", isRemoveFilterContextCommandData);
    ("newInsightInitialized", isNewInsightInitializedData);
    ("insightOpened", isInsightOpenedData);
    ("clearFinished", isClearFinishedData);
    ("visualizationSaved", isInsightSavedData);
    ("exportInsightFinished", isExportFinishedData);
    ("undoFinished", isUndoFinishedData);
    ("redoFinished", isRedoFinishedData) ].

End EmbeddedAnalyticalDesigner.

(* ================================================================== *)
(** ** embedding/kd.ts: namespace EmbeddedKpiDashboard *)
(* ================================================================== *)

Module EmbeddedKpiDashboard.

Inductive GdcKdCommandType : Type :=
| Save
| CancelEdit
| Delete
| SwitchToEdit
| DrillableItems
| SetSize
| AddWidget
| AddFilter
| ExportToPdf.

Definition GdcKdCommandType_value (c : GdcKdCommandType) : string :=
  match c with
  | Save => "saveDashboard"
  | CancelEdit => "cancelEdit"
  | Delete => "deleteDashboard"
  | SwitchToEdit => "switchToEdit"
  | DrillableItems => "drillableItems"
  | SetSize => "setSize"
  | AddWidget => "addWidget"
  | AddFilter => "addFilter"
  | ExportToPdf => "exportToPdf"
  end.

Inductive GdcKdEventType : Type :=
| ListeningForDrillableItems
| LoadingStarted
| NoPermissions
| Resized
| DashboardCreated
| DashboardLoaded
| DashboardUpdated
| DashboardSaved
| DashboardDeleted
| DashboardCreationCanceled
| SwitchedToEdit
| SwitchedToView
| Platform
| WidgetAdded
| FilterAdded
| ExportedToPdf
| Drill.

Definition GdcKdEventType_value (e : GdcKdEventType) : string :=
  match e with
  | ListeningForDrillableItems => "listeningForDrillableItems"
  | LoadingStarted => "loadingStarted"
  | NoPermissions => "noPermissions"
  | Resized => "resized"
  | DashboardCreated => "dashboardCreated"
  | DashboardLoaded => "loaded"
  | DashboardUpdated => "dashboardUpdated"
  | DashboardSaved => "dashboardSaved"
  | DashboardDeleted => "dashboardDeleted"
  | DashboardCreationCanceled => "dashboardCreationCanceled"
  | SwitchedToEdit => "switchedToEdit"
  | SwitchedToView => "switchedToView"
  | Platform => "platform"
  | WidgetAdded => "widgetAdded"
  | FilterAdded => "filterAdded"
  | ExportedToPdf => "exportedToPdf"
  | Drill => "drill"
  end.

Definition isSaveDashboardCommandData (obj : JsValue) : result bool :=
  eventTypeIs obj (GdcKdCommandType_value Save).

Definition isCancelEditCommandData (obj : JsValue) : result bool :=
  eventTypeIs obj (GdcKdCommandType_value CancelEdit).

Definition isSwitchToEditCommandData (obj : JsValue) : result bool :=
  eventTypeIs obj (GdcKdCommandType_value SwitchToEdit).

Definition isDrillableItemsCommandData (obj : JsValue) : result bool :=
  eventTypeIs obj (GdcKdCommandType_value DrillableItems).

Definition isSetSizeCommandData (obj : JsValue) : result bool :=
  eventTypeIs obj (GdcKdCommandType_value SetSize).

(** [return obj.identifier;]: the property itself is returned, whatever
    its type. *)
Definition isIdentifierInsight (obj : JsValue) : result JsValue :=
  getProp obj "identifier".

(** [return obj.uri;] *)
Definition isUriInsight (obj : JsValue) : result JsValue :=
  getProp obj "uri".

Definition isAddWidgetCommandData (obj : JsValue) : result bool :=
  eventTypeIs obj (GdcKdCommandType_value AddWidget).

Definition isAddFilterCommandData (obj : JsValue) : result bool :=
  eventTypeIs obj (GdcKdCommandType_value AddFilter).

Definition isExportToPdfCommandData (obj : JsValue) : result bool :=
  eventTypeIs obj (GdcKdCommandType_value ExportToPdf).

(** The envelope guards of the namespace with their literals. *)
Definition guards : list (string * (JsValue -> result bool)) :=
  [ ("saveDashboard", isSaveDashboardCommandData);
    ("cancelEdit", isCancelEditCommandData);
    ("switchToEdit", isSwitchToEditCommandData);
    ("drillableItems", isDrillableItemsCommandData);
    ("setSize", isSetSizeCommandData);
    ("addWidget", isAddWidgetCommandData);
    ("addFilter", isAddFilterCommandData);
    ("exportToPdf", isExportToPdfCommandData) ].

(** The two guards on insight references, with the field they return. *)
Definition refGuards : list (string * (JsValue -> result JsValue)) :=
  [ ("identifier", isIdentifierInsight);
    ("uri", isUriInsight) ].

End EmbeddedKpiDashboard.

(** Every guard on a message envelope, of both products and of common.ts. *)
Definition envelopeGuards : list (string * (JsValue -> result bool)) :=
  ("appCommandFailed", isCommandFailedData)
    :: EmbeddedAnalyticalDesigner.guards ++ EmbeddedKpiDashboard.guards.

(* ================================================================== *)
(** ** Sample values *)
(* ================================================================== *)

Module Samples.

(** [{ gdc: { product: "analyticalDesigner",
              event: { name: "saveInsight", data: { title: "My Insight" } } } }] *)
Definition saveInsightEnvelope : JsValue :=
  JObj [("gdc", JObj [("product", JStr "analyticalDesigner");
                      ("event", JObj [("name", JStr "saveInsight");
                                      ("data", JObj [("title", JStr "My Insight")])])])].

(** [{ gdc: { product: "analyticalDesigner", event: { name: 42 } } }] *)
Definition numberNameEnvelope : JsValue :=
  JObj [("gdc", JObj [("product", JStr "analyticalDesigner");
                      ("event", JObj [("name", JNum (number 42))])])].

(** [{ gdc: null }] and [{ gdc: { event: null } }] *)
Definition nullGdc : JsValue := JObj [("gdc", JNull)].
Definition nullEvent : JsValue := JObj [("gdc", JObj [("event", JNull)])].

(** [{ measure: { localIdentifier: "m1",
                  definition: { measure: { item: { identifier: "attr.revenue" } } } } }] *)
Definition simpleMeasure : JsValue :=
  JObj [("measure",
         JObj [("localIdentifier", JStr "m1");
               ("definition",
                JObj [("measure",
                       JObj [("item", JObj [("identifier", JStr "attr.revenue")])])])])].

(** [{ positiveAttributeFilter: { displayForm: { identifier: "df1" }, in: ["a","b"] } }] *)
Definition positiveFilter : JsValue :=
  JObj [("positiveAttributeFilter",
         JObj [("displayForm", JObj [("identifier", JStr "df1")]);
               ("in", JArr [JStr "a"; JStr "b"])])].

(** [{ measure: null }] and [{ uri: "" }] *)
Definition nullMeasure : JsValue := JObj [("measure", JNull)].
Definition emptyUri : JsValue := JObj [("uri", JStr "")].

(** [{ comparison: { operator: "GREATER_THAN", value: 10 } }] *)
Definition comparisonBody : Props :=
  [("operator", JStr "GREATER_THAN"); ("value", JNum (number 10))].
Definition comparisonCondition : JsValue :=
  JObj [("comparison", JObj comparisonBody)].

(** [{ gdc: { product: p, event: { name: n, data: d } } }] *)
Definition envelope (p : JsValue) (n : string) (d : JsValue) : JsValue :=
  JObj [("gdc", JObj [("product", p);
                      ("event", JObj [("name", JStr n); ("data", d)])])].

End Samples.

(* ================================================================== *)
(** ** Vocabulary of the statements *)
(* ================================================================== *)

(** [field v k = Some w]: [v] is an object holding property [k] with the
    value [w], and [w] is not [undefined]. *)
Definition field (v : JsValue) (k : string) : option JsValue :=
  match v with
  | JObj props =>
      match lookup k props with
      | Some JUndefined => None
      | found => found
      end
  | _ => None
  end.

(** The event name of a full three-level envelope, [x.gdc.event.name]. *)
Definition eventName (x : JsValue) : option JsValue :=
  match field x "gdc" with
  | Some gdc =>
      match field gdc "event" with
      | Some event => field event "name"
      | None => None
      end
  | None => None
  end.

(** Neither [x.gdc] nor [x.gdc.event] is [null]. *)
Definition noNullLevel (x : JsValue) : Prop :=
  field x "gdc" <> Some JNull /\
  forall gdc, field x "gdc" = Some gdc -> field gdc "event" <> Some JNull.

(** A key that is neither [length] nor an array index: strings and arrays
    have no own property of that name. *)
Definition plainKey (k : string) : Prop :=
  String.eqb k "length" = false /\ arrayIndex k = None.

Definition nullish (v : JsValue) : Prop := v = JNull \/ v = JUndefined.

(** [x] is a non-empty object and [x.k] is not [undefined]. *)
Definition hasDefined (x : JsValue) (k : string) : Prop :=
  exists props w,
    x = JObj props /\ props <> [] /\ lookup k props = Some w /\ w <> JUndefined.

(** [x] is an object and [x.k] is truthy. *)
Definition hasTruthy (x : JsValue) (k : string) : Prop :=
  exists props w, x = JObj props /\ lookup k props = Some w /\ truthy w = true.

(** [null], [undefined], a primitive, or [{}]. *)
Definition degenerate (x : JsValue) : Prop :=
  match x with
  | JUndefined | JNull | JBool _ | JNum _ | JStr _ => True
  | JObj [] => True
  | _ => False
  end.

(** *** The discriminated unions of the data model

    A union lists the marker fields of its variants and, for each guard
    declared on it, the markers that guard accepts.  A variant with no guard
    of its own (the attribute locator, the negative filter of
    [VisualizationObject]) still has a marker. *)
Record Union : Type := {
  markers : list string;
  predicates : list (list string * (JsValue -> result bool))
}.

Definition afmMeasureDefinitions : Union :=
  {| markers := ["measure"; "popMeasure"];
     predicates := [ (["measure"], AFM.isSimpleMeasureDefinition);
                     (["popMeasure"], AFM.isPopMeasureDefinition) ] |}.

Definition afmSortItems : Union :=
  {| markers := ["attributeSortItem"; "measureSortItem"];
     predicates := [ (["attributeSortItem"], AFM.isAttributeSortItem);
                     (["measureSortItem"], AFM.isMeasureSortItem) ] |}.

Definition afmLocatorItems : Union :=
  {| markers := ["attributeLocatorItem"; "measureLocatorItem"];
     predicates := [ (["measureLocatorItem"], AFM.isMeasureLocatorItem) ] |}.

Definition afmFilterItems : Union :=
  {| markers := ["positiveAttributeFilter"; "negativeAttributeFilter";
                 "absoluteDateFilter"; "relativeDateFilter"];
     predicates := [ (["positiveAttributeFilter"], AFM.isPositiveAttributeFilter);
                     (["negativeAttributeFilter"], AFM.isNegativeAttributeFilter) ] |}.

Definition voBucketItems : Union :=
  {| markers := ["measure"; "visualizationAttribute"];
     predicates :=
       [ (["measure"], VisualizationObject.isMeasure);
         (["visualizationAttribute"], VisualizationObject.isVisualizationAttribute);
         (["visualizationAttribute"], VisualizationObject.isAttribute) ] |}.

Definition voMeasureDefinitions : Union :=
  {| markers := ["measureDefinition"; "arithmeticMeasure";
                 "popMeasureDefinition"; "previousPeriodMeasure"];
     predicates :=
       [ (["measureDefinition"], VisualizationObject.isMeasureDefinition);
         (["arithmeticMeasure"], VisualizationObject.isArithmeticMeasureDefinition);
         (["popMeasureDefinition"], VisualizationObject.isPopMeasureDefinition);
         (["previousPeriodMeasure"],
          VisualizationObject.isPreviousPeriodMeasureDefinition) ] |}.

Definition voFilters : Union :=
  {| markers := ["positiveAttributeFilter"; "negativeAttributeFilter";
                 "absoluteDateFilter"; "relativeDateFilter"; "measureValueFilter"];
     predicates :=
       [ (["positiveAttributeFilter"; "negativeAttributeFilter"],
          VisualizationObject.isAttributeFilter);
         (["absoluteDateFilter"; "relativeDateFilter"],
          VisualizationObject.isDateFilter);
         (["positiveAttributeFilter"], VisualizationObject.isPositiveAttributeFilter);
         (["measureValueFilter"], VisualizationObject.isMeasureValueFilter);
         (["absoluteDateFilter"], VisualizationObject.isAbsoluteDateFilter);
         (["relativeDateFilter"], VisualizationObject.isRelativeDateFilter) ] |}.

Definition voConditions : Union :=
  {| markers := ["comparison"; "range"];
     predicates := [ (["comparison"], VisualizationObject.isComparisonCondition);
                     (["range"], VisualizationObject.isRangeCondition) ] |}.

Definition unions : list Union :=
  [ afmMeasureDefinitions; afmSortItems; afmLocatorItems; afmFilterItems;
    voBucketItems; voMeasureDefinitions; voFilters; voConditions ].

(** [accepts acc k]: marker [k] is among the markers [acc] a guard accepts. *)
Definition accepts (acc : list string) (k : string) : bool :=
  existsb (String.eqb k) acc.

(** *** Envelopes that differ only in [gdc.product] or [gdc.event.data] *)

Definition removeKey (k : string) (ps : Props) : Props :=
  filter (fun kv => negb (String.eqb (fst kv) k)) ps.

Definition updateKey (k : string) (f : JsValue -> JsValue) (ps : Props) : Props :=
  map (fun kv => if String.eqb (fst kv) k then (fst kv, f (snd kv)) else kv) ps.

Definition onObject (f : Props -> Props) (v : JsValue) : JsValue :=
  match v with
  | JObj ps => JObj (f ps)
  | _ => v
  end.

(** [x] with [gdc.product] and [gdc.event.data] taken out, wherever the
    envelope has them. *)
Definition eraseProductAndData (x : JsValue) : JsValue :=
  onObject
    (updateKey "gdc"
       (onObject (fun gdc =>
          removeKey "product"
            (updateKey "event" (onObject (removeKey "data")) gdc))))
    x.

Definition differOnlyInProductOrData (x y : JsValue) : Prop :=
  eraseProductAndData x = eraseProductAndData y.


(** Boolean readings of [hasDefined] and [hasTruthy]. *)
Definition isSome (o : option JsValue) : bool :=
  match o with
  | Some _ => true
  | None => false
  end.

Definition truthyField (x : JsValue) (k : string) : bool :=
  match field x k with
  | Some w => truthy w
  | None => false
  end.

(** *** Proof steps shared by the tables *)

(** Discharges [plainKey] on a literal key. *)
Ltac plain_key := split; reflexivity.

(** Walks a guard table: one goal per entry, with the entry substituted. *)
Ltac each_entry H :=
  simpl in H;
  repeat (destruct H as [H | H]; [inversion H; subst; clear H |]);
  try contradiction.


(** *** Vocabulary of the further properties *)

(** [x.gdc] is [null], or [x.gdc.event] is. *)
Definition nullLevel (x : JsValue) : Prop :=
  field x "gdc" = Some JNull \/
  exists gdc, field x "gdc" = Some gdc /\ field gdc "event" = Some JNull.

(** The event names of the insight editor for which ad.ts declares no
    guard. *)
Definition adEventsWithoutGuard : list EmbeddedAnalyticalDesigner.GdcAdEventType :=
  [ EmbeddedAnalyticalDesigner.ListeningForDrillableItems;
    EmbeddedAnalyticalDesigner.Drill;
    EmbeddedAnalyticalDesigner.FilterContextChanged;
    EmbeddedAnalyticalDesigner.SetFilterContextFinished;
    EmbeddedAnalyticalDesigner.RemoveFilterContextFinished ].
(* ================================================================== *)
(** ** Property reads *)
(* ================================================================== *)

Lemma plainKey_gdc : plainKey "gdc".
Proof. split; reflexivity. Qed.

Lemma plainKey_event : plainKey "event".
Proof. split; reflexivity. Qed.

Lemma plainKey_name : plainKey "name".
Proof. split; reflexivity. Qed.

(** Reading a plain key never raises on a value other than [null] and
    [undefined], and yields the field when there is one. *)
Lemma getProp_field (v : JsValue) (k : string) :
  plainKey k -> ~ nullish v ->
  getProp v k = Ok (match field v k with Some w => w | None => JUndefined end).
Proof.
  intros [Hlen Hidx] Hv.
  destruct v as [| | b | n | s | elems | props]; simpl.
  - exfalso; apply Hv; right; reflexivity.
  - exfalso; apply Hv; left; reflexivity.
  - reflexivity.
  - reflexivity.
  - rewrite Hlen, Hidx; reflexivity.
  - rewrite Hlen, Hidx; reflexivity.
  - destruct (lookup k props) as [w |]; [destruct w |]; reflexivity.
Qed.

Lemma field_not_undefined (v : JsValue) (k : string) :
  field v k <> Some JUndefined.
Proof.
  destruct v as [| | b | n | s | elems | props]; simpl; try discriminate.
  destruct (lookup k props) as [w |]; [destruct w |]; discriminate.
Qed.

Lemma destructure_field (v : JsValue) (k : string) (dflt : JsValue) :
  plainKey k -> ~ nullish v ->
  destructure v k dflt = Ok (match field v k with Some w => w | None => dflt end).
Proof.
  intros Hk Hv. unfold destructure.
  rewrite (getProp_field v k Hk Hv). simpl.
  pose proof (field_not_undefined v k) as Hu.
  destruct (field v k) as [w |]; [| reflexivity].
  destruct w; try reflexivity. exfalso; apply Hu; reflexivity.
Qed.

(** [obj || {}] is never [null] or [undefined] and has the fields of [obj]. *)
Lemma orElse_empty_not_nullish (obj : JsValue) : ~ nullish (orElse obj (JObj [])).
Proof.
  unfold orElse. intros H.
  destruct (truthy obj) eqn:Ht.
  - destruct H as [-> | ->]; discriminate Ht.
  - destruct H as [H | H]; discriminate H.
Qed.

Lemma field_orElse_empty (obj : JsValue) (k : string) :
  field (orElse obj (JObj [])) k = field obj k.
Proof.
  unfold orElse. destruct (truthy obj) eqn:Ht; [reflexivity |].
  destruct obj; simpl in *; try reflexivity; discriminate Ht.
Qed.

Lemma field_not_nullish (v w : JsValue) (k : string) :
  field v k = Some w -> w <> JNull -> ~ nullish w.
Proof.
  intros Hf Hn [H | H]; [exact (Hn H) |].
  subst w. exact (field_not_undefined v k Hf).
Qed.

(** What [getEventType] returns when no level of the envelope is [null]. *)
Lemma getEventType_eq (x : JsValue) :
  noNullLevel x ->
  getEventType x = Ok (match eventName x with Some n => n | None => JStr "" end).
Proof.
  intros [Hgdc Hevent]. unfold getEventType, eventName.
  rewrite (destructure_field _ "gdc" _ plainKey_gdc (orElse_empty_not_nullish x)).
  rewrite field_orElse_empty. simpl bind.
  destruct (field x "gdc") as [gdc |] eqn:Fg; [| reflexivity].
  assert (Hg : ~ nullish gdc).
  { apply (field_not_nullish x gdc "gdc" Fg). intros ->. apply Hgdc; reflexivity. }
  rewrite (destructure_field gdc "event" _ plainKey_event Hg). simpl bind.
  specialize (Hevent gdc eq_refl).
  destruct (field gdc "event") as [event |] eqn:Fe; [| reflexivity].
  assert (He : ~ nullish event).
  { apply (field_not_nullish gdc event "event" Fe). intros ->. apply Hevent; reflexivity. }
  rewrite (destructure_field event "name" _ plainKey_name He). reflexivity.
Qed.

Lemma isNull_dec (v : JsValue) : v = JNull \/ v <> JNull.
Proof. destruct v; (left; reflexivity) || (right; discriminate). Qed.

Lemma noNullLevel_dec (x : JsValue) :
  noNullLevel x \/
  (field x "gdc" = Some JNull \/
   exists gdc, field x "gdc" = Some gdc /\ field gdc "event" = Some JNull).
Proof.
  unfold noNullLevel.
  destruct (field x "gdc") as [gdc |] eqn:Fg.
  - destruct (isNull_dec gdc) as [-> | Hg]; [right; left; reflexivity |].
    destruct (field gdc "event") as [event |] eqn:Fe.
    + destruct (isNull_dec event) as [-> | He].
      * right; right. exists gdc. split; [reflexivity | exact Fe].
      * left. split; [congruence |].
        intros g Hg'. injection Hg' as <-. rewrite Fe. congruence.
    + left. split; [congruence |].
      intros g Hg'. injection Hg' as <-. rewrite Fe. discriminate.
  - left. split; [discriminate | intros g Hg; discriminate Hg].
Qed.

(** The accessor raises exactly when [gdc] or [gdc.event] is [null]. *)
Lemma getEventType_raises_iff (x : JsValue) :
  getEventType x = Throw TypeError <->
  (field x "gdc" = Some JNull \/
   exists gdc, field x "gdc" = Some gdc /\ field gdc "event" = Some JNull).
Proof.
  split.
  - intros Hthrow.
    destruct (noNullLevel_dec x) as [Hn | Hnull]; [| exact Hnull].
    rewrite (getEventType_eq x Hn) in Hthrow. discriminate Hthrow.
  - unfold getEventType.
    rewrite (destructure_field _ "gdc" _ plainKey_gdc (orElse_empty_not_nullish x)).
    rewrite field_orElse_empty. simpl bind.
    intros [Fg | [gdc [Fg Fe]]]; rewrite Fg.
    + reflexivity.
    + assert (Hg : ~ nullish gdc).
      { apply (field_not_nullish x gdc "gdc" Fg). intros ->. discriminate Fe. }
      rewrite (destructure_field gdc "event" _ plainKey_event Hg). rewrite Fe.
      reflexivity.
Qed.

(* ================================================================== *)
(** ** getEventType *)
(* ================================================================== *)

(** C1, as amended.  For every input [x] in which neither [x.gdc] nor
    [x.gdc.event] is [null], [getEventType x] returns without raising: it
    returns [x.gdc.event.name] unchanged when the three levels are present
    (so that string when the name is a string), and the empty string when
    a level is absent. *)
Theorem getEventType_without_null_level (x : JsValue) :
  noNullLevel x ->
  (forall n, eventName x = Some n -> getEventType x = Ok n) /\
  (forall s, eventName x = Some (JStr s) -> getEventType x = Ok (JStr s)) /\
  (eventName x = None -> getEventType x = Ok (JStr "")).
Proof.
  intros Hn. pose proof (getEventType_eq x Hn) as Heq.
  repeat split.
  - intros n Hname. rewrite Heq, Hname. reflexivity.
  - intros s Hname. rewrite Heq, Hname. reflexivity.
  - intros Hname. rewrite Heq, Hname. reflexivity.
Qed.

Lemma getEventType_without_null_level_witness :
  noNullLevel Samples.saveInsightEnvelope /\
  getEventType Samples.saveInsightEnvelope = Ok (JStr "saveInsight").
Proof.
  assert (Hn : noNullLevel Samples.saveInsightEnvelope).
  { split.
    - simpl. discriminate.
    - intros gdc Hg. simpl in Hg. injection Hg as <-. simpl. discriminate. }
  split; [exact Hn |].
  apply (getEventType_without_null_level Samples.saveInsightEnvelope Hn).
  reflexivity.
Defined.

(** C1 as stated fails where the event name is present and is not a
    string: on [{ gdc: { product: "analyticalDesigner", event: { name: 42 } } }]
    the accessor returns the number 42, which is neither a string nor the
    empty string the claim promises for an envelope without a string name. *)
Lemma getEventType_number_name :
  (forall s, eventName Samples.numberNameEnvelope <> Some (JStr s)) /\
  getEventType Samples.numberNameEnvelope = Ok (JNum (number 42)) /\
  ~ (exists s, getEventType Samples.numberNameEnvelope = Ok (JStr s)).
Proof.
  split; [| split].
  - intros s. simpl. discriminate.
  - reflexivity.
  - intros [s Hs]. vm_compute in Hs. discriminate Hs.
Qed.

(** A [null] at the [gdc] or at the [event] level makes the accessor raise:
    the defaults of the destructuring pattern replace [undefined] only. *)
Lemma getEventType_null_level_raises :
  getEventType Samples.nullGdc = Throw TypeError /\
  getEventType Samples.nullEvent = Throw TypeError.
Proof. split; reflexivity. Qed.

(** On the values that are not objects, the empty object included, the
    accessor returns the empty string. *)
Lemma getEventType_degenerate (x : JsValue) :
  degenerate x -> getEventType x = Ok (JStr "").
Proof.
  intros Hd.
  assert (Hf : field x "gdc" = None).
  { destruct x as [| | b | n | s | elems | props]; try reflexivity.
    destruct props; [reflexivity | unfold degenerate in Hd; contradiction]. }
  assert (Hn : noNullLevel x).
  { split; [rewrite Hf; discriminate | intros g Hg; rewrite Hf in Hg; discriminate Hg]. }
  rewrite (getEventType_eq x Hn). unfold eventName. rewrite Hf. reflexivity.
Qed.

(* ================================================================== *)
(** ** The marker guards of VisualizationObject and AFM *)
(* ================================================================== *)

Lemma hasDefined_field (x : JsValue) (k : string) :
  hasDefined x k <-> isSome (field x k) = true.
Proof.
  split.
  - intros [props [w [-> [_ [Hl Hw]]]]]. simpl. rewrite Hl.
    destruct w; try reflexivity. exfalso; apply Hw; reflexivity.
  - destruct x as [| | b | n | s | elems | props]; simpl; try discriminate.
    destruct (lookup k props) as [w |] eqn:Hl; [| discriminate].
    intros Hs. exists props, w.
    split; [reflexivity |]. split; [| split; [exact Hl |]].
    + intros Hp. subst props. discriminate Hl.
    + intros Hw. subst w. discriminate Hs.
Qed.

Lemma definedIn_object (props : Props) (k : string) :
  definedIn (JObj props) k = Ok (isSome (field (JObj props) k)).
Proof.
  unfold definedIn, getProp, field.
  destruct (lookup k props) as [w |]; [destruct w |]; reflexivity.
Qed.

(** [!isEmpty(x) && x.k !== undefined] on any value. *)
Lemma marker_body (x : JsValue) (k : string) :
  plainKey k ->
  andAlso (Ok (negb (isEmpty x))) (definedIn x k) = Ok (isSome (field x k)).
Proof.
  intros [Hlen Hidx].
  destruct x as [| | b | n | s | elems | props]; try reflexivity.
  - unfold andAlso, definedIn. simpl. rewrite Hlen, Hidx.
    destruct (s =? "")%string; reflexivity.
  - unfold andAlso, definedIn. simpl. rewrite Hlen, Hidx.
    destruct elems; reflexivity.
  - destruct props as [| p ps]; [reflexivity |].
    unfold andAlso. replace (isEmpty (JObj (p :: ps))) with false by reflexivity.
    cbn [bind negb]. apply definedIn_object.
Qed.

Lemma hasTruthy_field (x : JsValue) (k : string) :
  hasTruthy x k <-> truthyField x k = true.
Proof.
  unfold truthyField. split.
  - intros [props [w [-> [Hl Ht]]]]. simpl. rewrite Hl.
    destruct w; exact Ht.
  - destruct x as [| | b | n | s | elems | props]; simpl; try discriminate.
    destruct (lookup k props) as [w |] eqn:Hl; [| discriminate].
    intros Ht. exists props, w.
    split; [reflexivity |]. split; [exact Hl |].
    destruct w; exact Ht.
Qed.

(** [!!x.k] on a value other than [null] and [undefined]. *)
Lemma truthy_body (x : JsValue) (k : string) :
  plainKey k -> ~ nullish x ->
  (w <- getProp x k ;; Ok (toBoolean w)) = Ok (truthyField x k).
Proof.
  intros Hk Hx. rewrite (getProp_field x k Hk Hx). unfold truthyField.
  destruct (field x k); reflexivity.
Qed.

Lemma truthy_body_nullish (x : JsValue) (k : string) :
  nullish x -> (w <- getProp x k ;; Ok (toBoolean w)) = Throw TypeError.
Proof. intros [-> | ->]; reflexivity. Qed.

Lemma result_bool_cases (b : bool) (P : Prop) :
  (P <-> b = true) ->
  (Ok b = Ok true <-> P) /\ (Ok b = Ok false <-> ~ P).
Proof.
  intros [H1 H2]. destruct b.
  - split; split; intros H; try reflexivity.
    + apply H2; reflexivity.
    + discriminate H.
    + exfalso; apply H, H2; reflexivity.
  - split; split; intros H; try reflexivity.
    + discriminate H.
    + specialize (H1 H); discriminate H1.
    + intros HP. specialize (H1 HP); discriminate H1.
Qed.

Lemma marker_guard_spec (f : string) (g : JsValue -> result bool) :
  In (f, g) VisualizationObject.markerGuards ->
  forall x, g x = Ok (isSome (field x f)).
Proof.
  intros Hin x. each_entry Hin; apply marker_body; plain_key.
Qed.

Lemma afm_guard_spec (f : string) (g : JsValue -> result bool) :
  In (f, g) AFM.guards ->
  forall x, ~ nullish x -> g x = Ok (truthyField x f).
Proof.
  intros Hin x Hx. each_entry Hin; apply truthy_body; (plain_key || exact Hx).
Qed.

Lemma afm_guard_nullish (f : string) (g : JsValue -> result bool) :
  In (f, g) AFM.guards ->
  forall x, nullish x -> g x = Throw TypeError.
Proof.
  intros Hin x Hx. each_entry Hin; apply truthy_body_nullish; exact Hx.
Qed.

(** C2, as amended.  Every single-marker guard of [VisualizationObject]
    returns, on every input [x], [true] when [x] is a non-empty object whose
    marker field is not [undefined] ([null] counts as present) and [false]
    otherwise.  The guards of [AFM] test truthiness instead: on every [x]
    other than [null] and [undefined] they return [true] when [x] is an
    object whose marker field is truthy and [false] otherwise. *)
Theorem marker_guards_characterised (f : string) (g : JsValue -> result bool) (x : JsValue) :
  (In (f, g) VisualizationObject.markerGuards ->
   (g x = Ok true <-> hasDefined x f) /\ (g x = Ok false <-> ~ hasDefined x f)) /\
  (In (f, g) AFM.guards -> ~ nullish x ->
   (g x = Ok true <-> hasTruthy x f) /\ (g x = Ok false <-> ~ hasTruthy x f)).
Proof.
  split.
  - intros Hin. rewrite (marker_guard_spec f g Hin x).
    apply result_bool_cases, hasDefined_field.
  - intros Hin Hx. rewrite (afm_guard_spec f g Hin x Hx).
    apply result_bool_cases, hasTruthy_field.
Qed.

Lemma marker_guards_characterised_witness :
  VisualizationObject.isMeasure Samples.simpleMeasure = Ok true /\
  AFM.isSimpleMeasureDefinition Samples.nullMeasure = Ok false.
Proof.
  split.
  - destruct (proj1 (marker_guards_characterised
                       "measure" VisualizationObject.isMeasure Samples.simpleMeasure))
      as [Htrue _].
    + simpl. left. reflexivity.
    + apply Htrue. eexists. eexists. split; [reflexivity |].
      split; [discriminate |]. split; [reflexivity | discriminate].
  - destruct (proj2 (marker_guards_characterised
                       "measure" AFM.isSimpleMeasureDefinition Samples.nullMeasure))
      as [_ Hfalse].
    + simpl. right. left. reflexivity.
    + intros [H | H]; discriminate H.
    + apply Hfalse. intros [props [w [Hx [Hl Ht]]]].
      injection Hx as <-. simpl in Hl. injection Hl as <-. discriminate Ht.
Defined.

(** C2 as stated fails on the AFM guards: [{ measure: null }] is a
    non-empty object whose [measure] is not [undefined], and
    [AFM.isSimpleMeasureDefinition] returns [false] on it. *)
Lemma afm_guard_rejects_defined_null :
  hasDefined Samples.nullMeasure "measure" /\
  AFM.isSimpleMeasureDefinition Samples.nullMeasure = Ok false /\
  AFM.isSimpleMeasureDefinition Samples.nullMeasure <> Ok true.
Proof.
  split; [| split].
  - eexists. eexists. split; [reflexivity |].
    split; [discriminate |]. split; [reflexivity | discriminate].
  - reflexivity.
  - discriminate.
Qed.

(** [!isEmpty(x) && (x.k1 !== undefined || x.k2 !== undefined)] *)
Lemma group_body (x : JsValue) (k1 k2 : string) :
  plainKey k1 -> plainKey k2 ->
  andAlso (Ok (negb (isEmpty x))) (orElseB (definedIn x k1) (definedIn x k2))
  = Ok (isSome (field x k1) || isSome (field x k2)).
Proof.
  intros [Hlen1 Hidx1] [Hlen2 Hidx2].
  destruct x as [| | b | n | s | elems | props]; try reflexivity.
  - unfold andAlso, orElseB, definedIn. simpl.
    rewrite Hlen1, Hidx1, Hlen2, Hidx2.
    destruct (s =? "")%string; reflexivity.
  - unfold andAlso, orElseB, definedIn. simpl.
    rewrite Hlen1, Hidx1, Hlen2, Hidx2.
    destruct elems; reflexivity.
  - destruct props as [| p ps]; [reflexivity |].
    unfold andAlso, orElseB.
    replace (isEmpty (JObj (p :: ps))) with false by reflexivity.
    cbn [bind negb]. rewrite !definedIn_object. cbn [bind].
    destruct (isSome (field (JObj (p :: ps)) k1)); reflexivity.
Qed.

(** The two group guards accept either of their markers. *)
Lemma group_guard_spec (f1 f2 : string) (g : JsValue -> result bool) (x : JsValue) :
  In ((f1, f2), g) VisualizationObject.groupGuards ->
  g x = Ok (isSome (field x f1) || isSome (field x f2)).
Proof.
  intros Hin. each_entry Hin; apply group_body; plain_key.
Qed.

(* ================================================================== *)
(** ** The guards on values that are not populated objects *)
(* ================================================================== *)

Lemma field_degenerate (x : JsValue) (k : string) :
  degenerate x -> field x k = None.
Proof.
  intros Hd. destruct x as [| | b | n | s | elems | props]; try reflexivity.
  destruct props; [reflexivity | unfold degenerate in Hd; contradiction].
Qed.

(** Each envelope guard is the comparison of the event name with the
    literal of its table entry, and no literal is empty. *)
Lemma envelope_guard_spec (l : string) (g : JsValue -> result bool) :
  In (l, g) envelopeGuards -> forall x, g x = eventTypeIs x l.
Proof. intros Hin x. each_entry Hin; reflexivity. Qed.

Lemma envelope_literal_not_empty (l : string) (g : JsValue -> result bool) :
  In (l, g) envelopeGuards -> ("" =? l)%string = false.
Proof. intros Hin. each_entry Hin; reflexivity. Qed.

Lemma ref_guard_spec (f : string) (g : JsValue -> result JsValue) :
  In (f, g) EmbeddedKpiDashboard.refGuards ->
  plainKey f /\ forall x, g x = getProp x f.
Proof. intros Hin. each_entry Hin; (split; [plain_key | reflexivity]). Qed.

(** C3, as amended.  On [null], [undefined], a primitive or [{}], every
    guard of [VisualizationObject] and every envelope guard returns [false]
    without raising.  On a primitive or [{}] every AFM guard returns
    [false], and [isIdentifierInsight] and [isUriInsight] return
    [undefined], a falsy value but not [false].  On [null] and [undefined],
    which their parameter types exclude, the AFM guards raise. *)
Theorem guards_on_degenerate_input (x : JsValue) :
  degenerate x ->
  (forall g, In g VisualizationObject.guards -> g x = Ok false) /\
  (forall l g, In (l, g) envelopeGuards -> g x = Ok false) /\
  (~ nullish x ->
   (forall f g, In (f, g) AFM.guards -> g x = Ok false) /\
   (forall f g, In (f, g) EmbeddedKpiDashboard.refGuards -> g x = Ok JUndefined)) /\
  (nullish x -> forall f g, In (f, g) AFM.guards -> g x = Throw TypeError).
Proof.
  intros Hd. split; [| split; [| split]].
  - intros g Hin. unfold VisualizationObject.guards in Hin.
    apply in_app_or in Hin. destruct Hin as [Hin | Hin];
      apply in_map_iff in Hin; destruct Hin as [[f g'] [Hg Hin]];
      simpl in Hg; subst g'.
    + rewrite (marker_guard_spec f g Hin x), (field_degenerate x f Hd). reflexivity.
    + destruct f as [f1 f2].
      rewrite (group_guard_spec f1 f2 g x Hin),
        (field_degenerate x f1 Hd), (field_degenerate x f2 Hd).
      reflexivity.
  - intros l g Hin.
    rewrite (envelope_guard_spec l g Hin x). unfold eventTypeIs.
    rewrite (getEventType_degenerate x Hd). cbn [bind]. unfold strictEqualsString.
    rewrite (envelope_literal_not_empty l g Hin). reflexivity.
  - intros Hx. split.
    + intros f g Hin. rewrite (afm_guard_spec f g Hin x Hx).
      unfold truthyField. rewrite (field_degenerate x f Hd). reflexivity.
    + intros f g Hin. destruct (ref_guard_spec f g Hin) as [Hk Hg].
      rewrite Hg, (getProp_field x f Hk Hx), (field_degenerate x f Hd).
      reflexivity.
  - intros Hx f g Hin. exact (afm_guard_nullish f g Hin x Hx).
Qed.

Lemma guards_on_degenerate_input_witness :
  VisualizationObject.isMeasure JNull = Ok false /\
  EmbeddedAnalyticalDesigner.isSaveInsightCommandData JUndefined = Ok false /\
  AFM.isSimpleMeasureDefinition (JObj []) = Ok false /\
  EmbeddedKpiDashboard.isIdentifierInsight (JStr "abc") = Ok JUndefined /\
  AFM.isSimpleMeasureDefinition JNull = Throw TypeError.
Proof.
  destruct (guards_on_degenerate_input JNull I) as [Hvo [_ [_ Hnull]]].
  destruct (guards_on_degenerate_input JUndefined I) as [_ [Henv _]].
  destruct (guards_on_degenerate_input (JObj []) I) as [_ [_ [Hobj _]]].
  destruct (guards_on_degenerate_input (JStr "abc") I) as [_ [_ [Hstr _]]].
  destruct Hobj as [Hafm _]; [intros [H | H]; discriminate H |].
  destruct Hstr as [_ Href]; [intros [H | H]; discriminate H |].
  split; [| split; [| split; [| split]]].
  - apply Hvo. simpl. left. reflexivity.
  - apply (Henv "saveInsight"). simpl. do 5 right. left. reflexivity.
  - apply (Hafm "measure"). simpl. right. left. reflexivity.
  - apply (Href "identifier"). simpl. left. reflexivity.
  - apply (Hnull (or_introl eq_refl) "measure"). simpl. right. left. reflexivity.
Defined.

(** C3 as stated fails on the AFM guards at [null] and [undefined]: reading
    the marker field raises. *)
Lemma afm_guard_raises_on_null :
  AFM.isSimpleMeasureDefinition JNull = Throw TypeError /\
  AFM.isSimpleMeasureDefinition JUndefined = Throw TypeError /\
  AFM.isSimpleMeasureDefinition JNull <> Ok false.
Proof. repeat split; discriminate. Qed.

(** The reference guards hand back the field itself: [undefined] on [{}],
    the identifier string on a reference; they raise on [null]. *)
Lemma ref_guard_returns_field :
  EmbeddedKpiDashboard.isIdentifierInsight (JObj []) = Ok JUndefined /\
  EmbeddedKpiDashboard.isIdentifierInsight (JObj [("identifier", JStr "abc")])
  = Ok (JStr "abc") /\
  EmbeddedKpiDashboard.isIdentifierInsight JNull = Throw TypeError.
Proof. repeat split. Qed.

(* ================================================================== *)
(** ** AFM.isObjectUriQualifier *)
(* ================================================================== *)

(** C10.  On every object [x] (every value other than [null] and
    [undefined]) [AFM.isObjectUriQualifier] returns [true] when [x.uri] is
    truthy and [false] otherwise; [{ uri: "" }] holds a defined [uri] and is
    rejected. *)
Theorem isObjectUriQualifier_truthiness :
  (forall x, ~ nullish x ->
     (AFM.isObjectUriQualifier x = Ok true <-> hasTruthy x "uri") /\
     (AFM.isObjectUriQualifier x = Ok false <-> ~ hasTruthy x "uri")) /\
  hasDefined Samples.emptyUri "uri" /\
  AFM.isObjectUriQualifier Samples.emptyUri = Ok false.
Proof.
  split; [| split].
  - intros x Hx. unfold AFM.isObjectUriQualifier.
    rewrite (truthy_body x "uri" ltac:(plain_key) Hx).
    apply result_bool_cases, hasTruthy_field.
  - eexists. eexists. split; [reflexivity |].
    split; [discriminate |]. split; [reflexivity | discriminate].
  - reflexivity.
Qed.

Lemma isObjectUriQualifier_truthiness_witness :
  AFM.isObjectUriQualifier (JObj [("uri", JStr "/gdc/md/p/obj/1")]) = Ok true.
Proof.
  apply (proj1 isObjectUriQualifier_truthiness
           (JObj [("uri", JStr "/gdc/md/p/obj/1")])).
  - intros [H | H]; discriminate H.
  - eexists. eexists. split; [reflexivity |]. split; reflexivity.
Defined.

(* ================================================================== *)
(** ** Sibling variants of a union are told apart *)
(* ================================================================== *)

Lemma object_not_nullish (props : Props) : ~ nullish (JObj props).
Proof. intros [H | H]; discriminate H. Qed.

(** C4.  In every union of the data model, a value built as variant [K]
    (an object whose marker field [fK] holds an object and which holds no
    other marker of the union) is accepted by every guard declared for [K]
    and rejected by every guard declared for its siblings only. *)
Theorem union_guards_discriminate
    (u : Union) (fK : string) (props val : Props)
    (acc : list string) (g : JsValue -> result bool) :
  In u unions ->
  In fK (markers u) ->
  lookup fK props = Some (JObj val) ->
  (forall fJ, In fJ (markers u) -> fJ <> fK -> lookup fJ props = None) ->
  In (acc, g) (predicates u) ->
  g (JObj props) = Ok (accepts acc fK).
Proof.
  intros Hu HfK Hhit Hmiss Hg.
  simpl in Hu.
  repeat (destruct Hu as [Hu | Hu]; [subst u |]); try contradiction;
    simpl in HfK;
    repeat (destruct HfK as [HfK | HfK]; [subst fK |]); try contradiction;
    each_entry Hg;
    (* the guard as the boolean reading of its marker fields *)
    first
      [ etransitivity; [apply marker_body; plain_key |]
      | etransitivity; [apply group_body; plain_key |]
      | etransitivity; [apply truthy_body; [plain_key | apply object_not_nullish] |] ];
    unfold truthyField, field;
    (* each field read is the variant's marker or a sibling's *)
    repeat match goal with
           | |- context [lookup ?k props] =>
               first [ rewrite Hhit
                     | rewrite (Hmiss k ltac:(simpl; tauto) ltac:(discriminate)) ]
           end;
    reflexivity.
Qed.

Lemma union_guards_discriminate_witness :
  VisualizationObject.isComparisonCondition Samples.comparisonCondition = Ok true /\
  VisualizationObject.isRangeCondition Samples.comparisonCondition = Ok false.
Proof.
  assert (Hmiss : forall fJ, In fJ (markers voConditions) -> fJ <> "comparison" ->
                  lookup fJ [("comparison", JObj Samples.comparisonBody)] = None).
  { intros fJ HfJ Hne. simpl in HfJ.
    destruct HfJ as [<- | [<- | []]]; [contradiction Hne |]; reflexivity. }
  split.
  - apply (union_guards_discriminate voConditions "comparison"
             [("comparison", JObj Samples.comparisonBody)] Samples.comparisonBody
             ["comparison"]).
    + simpl. tauto.
    + simpl. tauto.
    + reflexivity.
    + exact Hmiss.
    + simpl. tauto.
  - apply (union_guards_discriminate voConditions "comparison"
             [("comparison", JObj Samples.comparisonBody)] Samples.comparisonBody
             ["range"]).
    + simpl. tauto.
    + simpl. tauto.
    + reflexivity.
    + exact Hmiss.
    + simpl. tauto.
Defined.

(* ================================================================== *)
(** ** Scenarios and wire literals *)
(* ================================================================== *)

(** C5.  On the save-insight envelope of the insight editor,
    [getEventType] returns ["saveInsight"], [isSaveInsightCommandData]
    returns [true], and every other envelope guard of either product and of
    common.ts returns [false]; [isSaveInsightCommandData] is the only guard
    on that literal. *)
Theorem saveInsight_envelope_routing :
  getEventType Samples.saveInsightEnvelope = Ok (JStr "saveInsight") /\
  EmbeddedAnalyticalDesigner.isSaveInsightCommandData Samples.saveInsightEnvelope
  = Ok true /\
  (forall l g, In (l, g) envelopeGuards -> l <> "saveInsight" ->
               g Samples.saveInsightEnvelope = Ok false) /\
  (forall l g, In (l, g) envelopeGuards -> l = "saveInsight" ->
               forall x, g x = EmbeddedAnalyticalDesigner.isSaveInsightCommandData x).
Proof.
  split; [reflexivity |]. split; [reflexivity |]. split.
  - intros l g Hin Hne.
    each_entry Hin; reflexivity.
  - intros l g Hin Heq x.
    each_entry Hin; first [reflexivity | discriminate].
Qed.

Lemma saveInsight_envelope_routing_witness :
  EmbeddedKpiDashboard.isSaveDashboardCommandData Samples.saveInsightEnvelope
  = Ok false /\
  EmbeddedAnalyticalDesigner.isOpenInsightCommandData Samples.saveInsightEnvelope
  = Ok false /\
  EmbeddedAnalyticalDesigner.isDrillableItemsCommandData Samples.saveInsightEnvelope
  = Ok false.
Proof.
  destruct saveInsight_envelope_routing as [_ [_ [Hothers _]]].
  split; [| split].
  - apply (Hothers "saveDashboard"); [| discriminate].
    simpl. do 19 right. left. reflexivity.
  - apply (Hothers "openInsight"); [| discriminate].
    simpl. do 3 right. left. reflexivity.
  - apply (Hothers "drillableItems"); [| discriminate].
    simpl. do 2 right. left. reflexivity.
Defined.

(** C6.  The discriminator constants are the documented wire values,
    character for character. *)
Theorem wire_literals :
  EmbeddedAnalyticalDesigner.GdcAdCommandType_value EmbeddedAnalyticalDesigner.Save
  = "saveInsight" /\
  EmbeddedAnalyticalDesigner.GdcAdCommandType_value
    EmbeddedAnalyticalDesigner.DrillableItems = "drillableItems" /\
  EmbeddedKpiDashboard.GdcKdCommandType_value EmbeddedKpiDashboard.DrillableItems
  = "drillableItems" /\
  EmbeddedAnalyticalDesigner.GdcAdEventType_value
    EmbeddedAnalyticalDesigner.ExportFinished = "exportInsightFinished" /\
  EmbeddedKpiDashboard.GdcKdEventType_value EmbeddedKpiDashboard.DashboardSaved
  = "dashboardSaved" /\
  GdcErrorType_value InvalidCommand = "error:invalidCommand" /\
  GdcErrorType_value InvalidArgument = "error:invalidArgument" /\
  GdcErrorType_value InvalidState = "error:invalidState" /\
  GdcErrorType_value RuntimeError = "error:runtime".
Proof. repeat split. Qed.

(** C7.  On the measure of the scenario, [AFM.isSimpleMeasureDefinition]
    returns [true]; the period-over-period guards of both namespaces and
    [isArithmeticMeasureDefinition] return [false]. *)
Theorem simple_measure_scenario :
  AFM.isSimpleMeasureDefinition Samples.simpleMeasure = Ok true /\
  AFM.isPopMeasureDefinition Samples.simpleMeasure = Ok false /\
  VisualizationObject.isPopMeasureDefinition Samples.simpleMeasure = Ok false /\
  VisualizationObject.isArithmeticMeasureDefinition Samples.simpleMeasure = Ok false.
Proof. repeat split. Qed.

(** The scenario's value carries the marker [measure], not
    [measureDefinition]: among the [VisualizationObject] guards it is a
    bucket-item measure and no measure definition. *)
Lemma simple_measure_in_VisualizationObject :
  VisualizationObject.isMeasure Samples.simpleMeasure = Ok true /\
  VisualizationObject.isMeasureDefinition Samples.simpleMeasure = Ok false.
Proof. split; reflexivity. Qed.

(** C8.  On the positive attribute filter of the scenario, the
    positive-filter guards return [true]; the negative-filter guard and the
    date-filter guards (either kind, absolute, relative) return [false]. *)
Theorem positive_filter_scenario :
  AFM.isPositiveAttributeFilter Samples.positiveFilter = Ok true /\
  VisualizationObject.isPositiveAttributeFilter Samples.positiveFilter = Ok true /\
  AFM.isNegativeAttributeFilter Samples.positiveFilter = Ok false /\
  VisualizationObject.isDateFilter Samples.positiveFilter = Ok false /\
  VisualizationObject.isAbsoluteDateFilter Samples.positiveFilter = Ok false /\
  VisualizationObject.isRelativeDateFilter Samples.positiveFilter = Ok false.
Proof. repeat split. Qed.

(* ================================================================== *)
(** ** The envelope guards read the event name only *)
(* ================================================================== *)

Lemma lookup_updateKey_same (k : string) (f : JsValue -> JsValue) (ps : Props) :
  lookup k (updateKey k f ps) = option_map f (lookup k ps).
Proof.
  induction ps as [| [k' v] ps IH]; [reflexivity |].
  simpl. destruct (k' =? k)%string eqn:E; simpl; rewrite E; [reflexivity | exact IH].
Qed.

Lemma lookup_updateKey_other (k k' : string) (f : JsValue -> JsValue) (ps : Props) :
  (k' =? k)%string = false ->
  lookup k (updateKey k' f ps) = lookup k ps.
Proof.
  intros Hne. induction ps as [| [k0 v] ps IH]; [reflexivity |].
  simpl. destruct (k0 =? k')%string eqn:E; simpl.
  - apply String.eqb_eq in E. subst k0. rewrite Hne. exact IH.
  - destruct (k0 =? k)%string; [reflexivity | exact IH].
Qed.

Lemma lookup_removeKey_other (k k' : string) (ps : Props) :
  (k' =? k)%string = false ->
  lookup k (removeKey k' ps) = lookup k ps.
Proof.
  intros Hne. induction ps as [| [k0 v] ps IH]; [reflexivity |].
  simpl. destruct (k0 =? k')%string eqn:E; simpl.
  - apply String.eqb_eq in E. subst k0. rewrite Hne. exact IH.
  - destruct (k0 =? k)%string; [reflexivity | exact IH].
Qed.

Lemma destructure_object (props : Props) (k : string) (dflt : JsValue) :
  destructure (JObj props) k dflt
  = Ok (match lookup k props with
        | Some w => if isUndefined w then dflt else w
        | None => dflt
        end).
Proof.
  unfold destructure, getProp. destruct (lookup k props); reflexivity.
Qed.

(** Taking [gdc.product] and [gdc.event.data] out of a value does not
    change what [getEventType] does on it. *)
Lemma getEventType_erase (x : JsValue) :
  getEventType (eraseProductAndData x) = getEventType x.
Proof.
  destruct x as [| | b | n | s | elems | props]; try reflexivity.
  unfold getEventType, eraseProductAndData, onObject at 1.
  unfold orElse. cbn [truthy].
  rewrite !destructure_object, lookup_updateKey_same.
  destruct (lookup "gdc" props) as [gdc |]; [| reflexivity].
  cbn [option_map bind].
  destruct gdc as [| | b | n | s | elems | gp]; try reflexivity.
  cbn [onObject isUndefined].
  rewrite !destructure_object.
  rewrite (lookup_removeKey_other "event" "product") by reflexivity.
  rewrite lookup_updateKey_same.
  destruct (lookup "event" gp) as [event |]; [| reflexivity].
  cbn [option_map bind].
  destruct event as [| | b | n | s | elems | ep]; try reflexivity.
  cbn [onObject isUndefined].
  rewrite !destructure_object.
  rewrite (lookup_removeKey_other "name" "data") by reflexivity.
  reflexivity.
Qed.

Lemma getProp_erase (x : JsValue) (k : string) :
  ("gdc" =? k)%string = false ->
  getProp (eraseProductAndData x) k = getProp x k.
Proof.
  intros Hk. destruct x as [| | b | n | s | elems | props]; try reflexivity.
  unfold eraseProductAndData, onObject at 1, getProp.
  rewrite (lookup_updateKey_other k "gdc") by exact Hk. reflexivity.
Qed.

(** C9.  An envelope guard returns the same result on any two inputs on
    which [getEventType] does, hence on any two inputs that differ only in
    [gdc.product] or [gdc.event.data]; the two reference guards of the
    dashboards namespace are insensitive to those fields as well.  The
    drillable-items literals of the two products are the same string, and
    both guards return [true] on an envelope carrying it, whatever product
    and data it names. *)
Theorem envelope_guards_ignore_product_and_data :
  (forall l g x y, In (l, g) envelopeGuards ->
     getEventType x = getEventType y -> g x = g y) /\
  (forall l g x y, In (l, g) envelopeGuards ->
     differOnlyInProductOrData x y -> g x = g y) /\
  (forall f g x y, In (f, g) EmbeddedKpiDashboard.refGuards ->
     differOnlyInProductOrData x y -> g x = g y) /\
  EmbeddedAnalyticalDesigner.GdcAdCommandType_value
    EmbeddedAnalyticalDesigner.DrillableItems
  = EmbeddedKpiDashboard.GdcKdCommandType_value EmbeddedKpiDashboard.DrillableItems /\
  (forall p d,
     EmbeddedAnalyticalDesigner.isDrillableItemsCommandData
       (Samples.envelope p "drillableItems" d) = Ok true /\
     EmbeddedKpiDashboard.isDrillableItemsCommandData
       (Samples.envelope p "drillableItems" d) = Ok true).
Proof.
  assert (Hname : forall l g x y, In (l, g) envelopeGuards ->
                    getEventType x = getEventType y -> g x = g y).
  { intros l g x y Hin Heq.
    rewrite !(envelope_guard_spec l g Hin). unfold eventTypeIs.
    rewrite Heq. reflexivity. }
  split; [exact Hname |]. split; [| split; [| split]].
  - intros l g x y Hin Hxy. apply (Hname l g x y Hin).
    rewrite <- (getEventType_erase x), <- (getEventType_erase y).
    unfold differOnlyInProductOrData in Hxy. rewrite Hxy. reflexivity.
  - intros f g x y Hin Hxy. unfold differOnlyInProductOrData in Hxy.
    each_entry Hin.
    + unfold EmbeddedKpiDashboard.isIdentifierInsight.
      rewrite <- (getProp_erase x "identifier"), <- (getProp_erase y "identifier")
        by reflexivity.
      rewrite Hxy. reflexivity.
    + unfold EmbeddedKpiDashboard.isUriInsight.
      rewrite <- (getProp_erase x "uri"), <- (getProp_erase y "uri") by reflexivity.
      rewrite Hxy. reflexivity.
  - reflexivity.
  - intros p d. split; reflexivity.
Qed.

Lemma envelope_guards_ignore_product_and_data_witness :
  EmbeddedAnalyticalDesigner.isSaveInsightCommandData Samples.saveInsightEnvelope
  = EmbeddedAnalyticalDesigner.isSaveInsightCommandData
      (Samples.envelope (JStr "dashboards") "saveInsight" JNull).
Proof.
  apply (proj1 (proj2 envelope_guards_ignore_product_and_data) "saveInsight").
  - simpl. do 5 right. left. reflexivity.
  - reflexivity.
Defined.

(* ================================================================== *)
(** ** Further properties of the envelope guards *)
(* ================================================================== *)

Lemma eventName_noNullLevel (x n : JsValue) :
  eventName x = Some n -> noNullLevel x.
Proof.
  unfold eventName, noNullLevel. intros Hn.
  destruct (field x "gdc") as [gdc |] eqn:Fg; [| discriminate Hn].
  destruct (field gdc "event") as [event |] eqn:Fe; [| discriminate Hn].
  split.
  - intros Heq. injection Heq as ->. discriminate Fe.
  - intros g Hg. injection Hg as <-. rewrite Fe.
    intros Heq. injection Heq as ->. discriminate Hn.
Qed.

Lemma nullLevel_raises (x : JsValue) :
  nullLevel x <-> getEventType x = Throw TypeError.
Proof. symmetry. apply getEventType_raises_iff. Qed.

Lemma envelope_guards_in_ad (l : string) (g : JsValue -> result bool) :
  In (l, g) EmbeddedAnalyticalDesigner.guards -> In (l, g) envelopeGuards.
Proof. intros H. unfold envelopeGuards. right. apply in_or_app. left. exact H. Qed.

Lemma envelope_guards_in_kd (l : string) (g : JsValue -> result bool) :
  In (l, g) EmbeddedKpiDashboard.guards -> In (l, g) envelopeGuards.
Proof. intros H. unfold envelopeGuards. right. apply in_or_app. right. exact H. Qed.

(** What a guard answers when no level is [null]. *)
Lemma envelope_guard_result (l : string) (g : JsValue -> result bool) (x : JsValue) :
  In (l, g) envelopeGuards -> noNullLevel x ->
  g x = Ok (match eventName x with
            | Some (JStr n) => (n =? l)%string
            | _ => false
            end).
Proof.
  intros Hin Hn.
  rewrite (envelope_guard_spec l g Hin x). unfold eventTypeIs.
  rewrite (getEventType_eq x Hn). cbn [bind].
  destruct (eventName x) as [n |].
  - destruct n; reflexivity.
  - unfold strictEqualsString.
    rewrite (envelope_literal_not_empty l g Hin). reflexivity.
Qed.

Lemma envelope_guard_on_named (l : string) (g : JsValue -> result bool)
    (x : JsValue) (n : string) :
  In (l, g) envelopeGuards -> eventName x = Some (JStr n) ->
  g x = Ok (n =? l)%string.
Proof.
  intros Hin Hname.
  rewrite (envelope_guard_result l g x Hin (eventName_noNullLevel x _ Hname)).
  rewrite Hname. reflexivity.
Qed.

Lemma envelope_guard_raises (l : string) (g : JsValue -> result bool) (x : JsValue) :
  In (l, g) envelopeGuards -> nullLevel x -> g x = Throw TypeError.
Proof.
  intros Hin Hnull.
  rewrite (envelope_guard_spec l g Hin x). unfold eventTypeIs.
  rewrite (proj1 (nullLevel_raises x) Hnull). reflexivity.
Qed.

Lemma envelope_guard_true_iff (l : string) (g : JsValue -> result bool) (x : JsValue) :
  In (l, g) envelopeGuards ->
  (g x = Ok true <-> eventName x = Some (JStr l)).
Proof.
  intros Hin. split.
  - intros Htrue.
    destruct (noNullLevel_dec x) as [Hn | Hnull].
    + rewrite (envelope_guard_result l g x Hin Hn) in Htrue.
      destruct (eventName x) as [n |]; [| discriminate Htrue].
      destruct n; try discriminate Htrue.
      injection Htrue as Heq. apply String.eqb_eq in Heq. subst. reflexivity.
    + rewrite (envelope_guard_raises l g x Hin Hnull) in Htrue. discriminate Htrue.
  - intros Hname. rewrite (envelope_guard_on_named l g x l Hin Hname).
    rewrite String.eqb_refl. reflexivity.
Qed.

(** X1.  [getEventType] and every envelope guard raise on exactly the
    inputs in which [gdc] or [gdc.event] is [null]; on every other input a
    guard returns a boolean. *)
Theorem null_level_is_the_only_failure
    (l : string) (g : JsValue -> result bool) (x : JsValue) :
  In (l, g) envelopeGuards ->
  (getEventType x = Throw TypeError <-> nullLevel x) /\
  (g x = Throw TypeError <-> nullLevel x) /\
  (~ nullLevel x -> exists b, g x = Ok b).
Proof.
  intros Hin.
  assert (Hok : noNullLevel x -> exists b, g x = Ok b).
  { intros Hn. eexists. apply (envelope_guard_result l g x Hin Hn). }
  split; [apply getEventType_raises_iff |]. split; [split |].
  - intros Hthrow.
    destruct (noNullLevel_dec x) as [Hn | Hnull]; [| exact Hnull].
    destruct (Hok Hn) as [b Hb]. rewrite Hb in Hthrow. discriminate Hthrow.
  - apply (envelope_guard_raises l g x Hin).
  - intros Hnot.
    destruct (noNullLevel_dec x) as [Hn | Hnull]; [exact (Hok Hn) | contradiction].
Qed.

Lemma null_level_is_the_only_failure_witness :
  EmbeddedKpiDashboard.isSaveDashboardCommandData Samples.nullEvent = Throw TypeError /\
  exists b, EmbeddedKpiDashboard.isSaveDashboardCommandData
              (JObj [("gdc", JObj [("event", JArr [])])]) = Ok b.
Proof.
  split.
  - apply (null_level_is_the_only_failure "saveDashboard").
    + simpl. do 19 right. left. reflexivity.
    + right. eexists. split; reflexivity.
  - apply (null_level_is_the_only_failure "saveDashboard").
    + simpl. do 19 right. left. reflexivity.
    + intros [H | [gdc [Hg He]]].
      * discriminate H.
      * simpl in Hg. injection Hg as <-. discriminate He.
Defined.

(** X2.  An envelope guard returns [true] exactly when the three levels
    are present and [gdc.event.name] is the string of its literal: no other
    type of name, and no other string, is accepted. *)
Theorem envelope_guard_accepts_exactly_its_literal
    (l : string) (g : JsValue -> result bool) (x : JsValue) :
  In (l, g) envelopeGuards ->
  (g x = Ok true <-> eventName x = Some (JStr l)) /\
  (forall n, eventName x = Some (JStr n) -> g x = Ok (n =? l)%string) /\
  (forall v, eventName x = Some v -> (forall n, v <> JStr n) -> g x = Ok false).
Proof.
  intros Hin. split; [exact (envelope_guard_true_iff l g x Hin) |]. split.
  - intros n Hname. exact (envelope_guard_on_named l g x n Hin Hname).
  - intros v Hname Hv.
    pose proof (eventName_noNullLevel x v Hname) as Hn.
    rewrite (envelope_guard_result l g x Hin Hn), Hname.
    destruct v; try reflexivity. exfalso. exact (Hv s eq_refl).
Qed.

Lemma envelope_guard_accepts_exactly_its_literal_witness :
  eventName (Samples.envelope JNull "undo" JUndefined) = Some (JStr "undo").
Proof.
  apply (envelope_guard_accepts_exactly_its_literal
           "undo" EmbeddedAnalyticalDesigner.isUndoCommandData).
  - simpl. do 8 right. left. reflexivity.
  - reflexivity.
Defined.

(** X3.  Two envelope guards that both return [true] on one input compare
    against the same literal and are the same predicate; within each
    product no literal is used twice. *)
Theorem envelope_guards_exclusive
    (l1 l2 : string) (g1 g2 : JsValue -> result bool) (x : JsValue) :
  In (l1, g1) envelopeGuards -> In (l2, g2) envelopeGuards ->
  g1 x = Ok true -> g2 x = Ok true ->
  l1 = l2 /\ (forall y, g1 y = g2 y) /\
  NoDup (map fst EmbeddedAnalyticalDesigner.guards) /\
  NoDup (map fst EmbeddedKpiDashboard.guards).
Proof.
  intros Hin1 Hin2 H1 H2.
  apply (envelope_guard_true_iff l1 g1 x Hin1) in H1.
  apply (envelope_guard_true_iff l2 g2 x Hin2) in H2.
  rewrite H1 in H2. injection H2 as Heq. subst l2.
  split; [reflexivity |]. split.
  - intros y.
    rewrite (envelope_guard_spec l1 g1 Hin1 y), (envelope_guard_spec l1 g2 Hin2 y).
    reflexivity.
  - split; simpl;
      repeat (constructor;
              [simpl; intros Hin;
               repeat (destruct Hin as [Hin | Hin]; [discriminate Hin |]);
               exact Hin |]);
      constructor.
Qed.

Lemma envelope_guards_exclusive_witness :
  EmbeddedAnalyticalDesigner.isDrillableItemsCommandData Samples.saveInsightEnvelope
  = EmbeddedKpiDashboard.isDrillableItemsCommandData Samples.saveInsightEnvelope.
Proof.
  destruct (envelope_guards_exclusive
              "drillableItems" "drillableItems"
              EmbeddedAnalyticalDesigner.isDrillableItemsCommandData
              EmbeddedKpiDashboard.isDrillableItemsCommandData
              (Samples.envelope JNull "drillableItems" JNull))
    as [_ [Hsame _]].
  - simpl. do 2 right. left. reflexivity.
  - simpl. do 22 right. left. reflexivity.
  - reflexivity.
  - reflexivity.
  - apply Hsame.
Defined.

(** X4.  Every command of the insight editor, and every command of the
    dashboards other than [Delete], has a guard in its namespace that
    returns [true] on each message carrying the command's name. *)
Theorem commands_have_a_guard (x : JsValue) :
  (forall c, eventName x
             = Some (JStr (EmbeddedAnalyticalDesigner.GdcAdCommandType_value c)) ->
     exists g,
       In (EmbeddedAnalyticalDesigner.GdcAdCommandType_value c, g)
          EmbeddedAnalyticalDesigner.guards /\
       g x = Ok true) /\
  (forall c, c <> EmbeddedKpiDashboard.Delete ->
     eventName x = Some (JStr (EmbeddedKpiDashboard.GdcKdCommandType_value c)) ->
     exists g,
       In (EmbeddedKpiDashboard.GdcKdCommandType_value c, g)
          EmbeddedKpiDashboard.guards /\
       g x = Ok true).
Proof.
  split.
  - intros c Hname.
    assert (Hin : exists g,
               In (EmbeddedAnalyticalDesigner.GdcAdCommandType_value c, g)
                  EmbeddedAnalyticalDesigner.guards).
    { destruct c; simpl; eexists; tauto. }
    destruct Hin as [g Hin]. exists g. split; [exact Hin |].
    apply (envelope_guard_true_iff _ g x (envelope_guards_in_ad _ g Hin)).
    exact Hname.
  - intros c Hc Hname.
    assert (Hin : exists g,
               In (EmbeddedKpiDashboard.GdcKdCommandType_value c, g)
                  EmbeddedKpiDashboard.guards).
    { destruct c; try contradiction; simpl; eexists; tauto. }
    destruct Hin as [g Hin]. exists g. split; [exact Hin |].
    apply (envelope_guard_true_iff _ g x (envelope_guards_in_kd _ g Hin)).
    exact Hname.
Qed.

Lemma commands_have_a_guard_witness :
  exists g,
    In ("exportToPdf", g) EmbeddedKpiDashboard.guards /\
    g (Samples.envelope (JStr "dashboards") "exportToPdf" JNull) = Ok true.
Proof.
  apply (proj2 (commands_have_a_guard
                  (Samples.envelope (JStr "dashboards") "exportToPdf" JNull))
           EmbeddedKpiDashboard.ExportToPdf).
  - discriminate.
  - reflexivity.
Defined.

(** X5.  No guard of the library recognises the dashboards' [Delete]
    command, any event of the dashboards, or the insight-editor events
    [ListeningForDrillableItems], [Drill], [FilterContextChanged],
    [SetFilterContextFinished] and [RemoveFilterContextFinished]: on a
    message carrying one of these names every envelope guard returns
    [false]. *)
Theorem names_without_a_guard
    (l : string) (g : JsValue -> result bool) (x : JsValue) :
  In (l, g) envelopeGuards ->
  (eventName x
   = Some (JStr (EmbeddedKpiDashboard.GdcKdCommandType_value EmbeddedKpiDashboard.Delete))
   \/ (exists e, eventName x = Some (JStr (EmbeddedKpiDashboard.GdcKdEventType_value e)))
   \/ (exists e, In e adEventsWithoutGuard /\
                 eventName x
                 = Some (JStr (EmbeddedAnalyticalDesigner.GdcAdEventType_value e)))) ->
  g x = Ok false.
Proof.
  intros Hin Hname.
  destruct Hname as [Hname | [[e Hname] | [e [He Hname]]]];
    rewrite (envelope_guard_on_named l g x _ Hin Hname); clear Hname.
  - each_entry Hin; reflexivity.
  - destruct e; each_entry Hin; reflexivity.
  - simpl in He.
    repeat (destruct He as [He | He]; [subst e |]); try contradiction;
      each_entry Hin; reflexivity.
Qed.

Lemma names_without_a_guard_witness :
  EmbeddedKpiDashboard.isSaveDashboardCommandData
    (Samples.envelope (JStr "dashboards") "deleteDashboard" JNull) = Ok false.
Proof.
  apply (names_without_a_guard "saveDashboard").
  - simpl. do 19 right. left. reflexivity.
  - left. reflexivity.
Defined.

(** X6.  Within each enumeration distinct members have distinct wire
    strings, and within each product no string names both a command and an
    event. *)
Theorem wire_values_injective :
  (forall a b, GdcErrorType_value a = GdcErrorType_value b -> a = b) /\
  (forall a b, EmbeddedAnalyticalDesigner.GdcAdCommandType_value a
               = EmbeddedAnalyticalDesigner.GdcAdCommandType_value b -> a = b) /\
  (forall a b, EmbeddedAnalyticalDesigner.GdcAdEventType_value a
               = EmbeddedAnalyticalDesigner.GdcAdEventType_value b -> a = b) /\
  (forall a b, EmbeddedKpiDashboard.GdcKdCommandType_value a
               = EmbeddedKpiDashboard.GdcKdCommandType_value b -> a = b) /\
  (forall a b, EmbeddedKpiDashboard.GdcKdEventType_value a
               = EmbeddedKpiDashboard.GdcKdEventType_value b -> a = b) /\
  (forall c e, EmbeddedAnalyticalDesigner.GdcAdCommandType_value c
               <> EmbeddedAnalyticalDesigner.GdcAdEventType_value e) /\
  (forall c e, EmbeddedKpiDashboard.GdcKdCommandType_value c
               <> EmbeddedKpiDashboard.GdcKdEventType_value e).
Proof.
  repeat split;
    intros a b; destruct a, b; intros H;
    first [reflexivity | discriminate H].
Qed.

Lemma wire_values_injective_witness :
  EmbeddedAnalyticalDesigner.Save = EmbeddedAnalyticalDesigner.Save.
Proof.
  apply (proj1 (proj2 wire_values_injective)). reflexivity.
Defined.



(* ================================================================== *)
(** ** Further properties of the data-model guards *)
(* ================================================================== *)

Lemma marker_key_plain (f : string) (g : JsValue -> result bool) :
  In (f, g) VisualizationObject.markerGuards -> plainKey f.
Proof. intros Hin. each_entry Hin; plain_key. Qed.

Lemma afm_key_plain (f : string) (g : JsValue -> result bool) :
  In (f, g) AFM.guards -> plainKey f.
Proof. intros Hin. each_entry Hin; plain_key. Qed.

Lemma definedIn_field (x : JsValue) (k : string) :
  plainKey k -> ~ nullish x -> definedIn x k = Ok (isSome (field x k)).
Proof.
  intros Hk Hx. unfold definedIn. rewrite (getProp_field x k Hk Hx). cbn [bind].
  pose proof (field_not_undefined x k) as Hu.
  destruct (field x k) as [w |]; [| reflexivity].
  destruct w; try reflexivity. exfalso; apply Hu; reflexivity.
Qed.

Lemma field_nullish (x : JsValue) (k : string) : nullish x -> field x k = None.
Proof. intros [-> | ->]; reflexivity. Qed.

Lemma truthyField_isSome (x : JsValue) (k : string) :
  truthyField x k = true -> isSome (field x k) = true.
Proof. unfold truthyField. destruct (field x k); [reflexivity | discriminate]. Qed.

(** X8.  In a single-marker guard of [VisualizationObject] the [isEmpty]
    test changes the outcome on [null] and [undefined] only: there the
    guard returns [false] where the bare test [x.field !== undefined] would
    raise, and on every other input the guard and the bare test agree. *)
Theorem isEmpty_only_shields_nullish
    (f : string) (g : JsValue -> result bool) (x : JsValue) :
  In (f, g) VisualizationObject.markerGuards ->
  (~ nullish x -> g x = definedIn x f) /\
  (nullish x -> g x = Ok false /\ definedIn x f = Throw TypeError).
Proof.
  intros Hin. rewrite (marker_guard_spec f g Hin x). split.
  - intros Hx. symmetry. apply definedIn_field; [| exact Hx].
    exact (marker_key_plain f g Hin).
  - intros Hx. rewrite (field_nullish x f Hx).
    split; [reflexivity |]. destruct Hx as [-> | ->]; reflexivity.
Qed.

Lemma isEmpty_only_shields_nullish_witness :
  VisualizationObject.isRangeCondition (JStr "range")
  = definedIn (JStr "range") "range" /\
  VisualizationObject.isRangeCondition JNull = Ok false /\
  definedIn JNull "range" = Throw TypeError.
Proof.
  assert (Hin : In ("range", VisualizationObject.isRangeCondition)
                   VisualizationObject.markerGuards).
  { simpl. do 13 right. left. reflexivity. }
  destruct (isEmpty_only_shields_nullish
              "range" VisualizationObject.isRangeCondition (JStr "range") Hin)
    as [Hsame _].
  destruct (isEmpty_only_shields_nullish
              "range" VisualizationObject.isRangeCondition JNull Hin)
    as [_ Hnull].
  split.
  - apply Hsame. intros [H | H]; discriminate H.
  - apply Hnull. left. reflexivity.
Defined.

(** X9.  Whatever an AFM guard accepts, the [VisualizationObject] guards
    on the same marker accept too: a value accepted by
    [AFM.isSimpleMeasureDefinition] is accepted by
    [VisualizationObject.isMeasure], and a value accepted by either AFM
    attribute-filter guard is accepted by
    [VisualizationObject.isAttributeFilter]. *)
Theorem afm_acceptance_implies_vo_acceptance (x : JsValue) :
  (forall f gA gV,
     In (f, gA) AFM.guards -> In (f, gV) VisualizationObject.markerGuards ->
     gA x = Ok true -> gV x = Ok true) /\
  (AFM.isPositiveAttributeFilter x = Ok true \/
   AFM.isNegativeAttributeFilter x = Ok true ->
   VisualizationObject.isAttributeFilter x = Ok true).
Proof.
  assert (Hafm : forall f gA, In (f, gA) AFM.guards -> gA x = Ok true ->
                   isSome (field x f) = true).
  { intros f gA HinA HA.
    assert (Hx : ~ nullish x).
    { intros Hx. rewrite (afm_guard_nullish f gA HinA x Hx) in HA. discriminate HA. }
    rewrite (afm_guard_spec f gA HinA x Hx) in HA.
    injection HA as HA. exact (truthyField_isSome x f HA). }
  split.
  - intros f gA gV HinA HinV HA.
    rewrite (marker_guard_spec f gV HinV x), (Hafm f gA HinA HA). reflexivity.
  - intros HA.
    rewrite (group_guard_spec "positiveAttributeFilter" "negativeAttributeFilter"
               VisualizationObject.isAttributeFilter x)
      by (simpl; left; reflexivity).
    destruct HA as [HA | HA].
    + rewrite (Hafm "positiveAttributeFilter" AFM.isPositiveAttributeFilter);
        [reflexivity | simpl; tauto | exact HA].
    + rewrite (Hafm "negativeAttributeFilter" AFM.isNegativeAttributeFilter);
        [rewrite orb_true_r; reflexivity | simpl; tauto | exact HA].
Qed.

Lemma afm_acceptance_implies_vo_acceptance_witness :
  VisualizationObject.isMeasure Samples.simpleMeasure = Ok true /\
  VisualizationObject.isAttributeFilter Samples.positiveFilter = Ok true.
Proof.
  split.
  - apply (proj1 (afm_acceptance_implies_vo_acceptance Samples.simpleMeasure)
             "measure" AFM.isSimpleMeasureDefinition).
    + simpl. right. left. reflexivity.
    + simpl. left. reflexivity.
    + reflexivity.
  - apply (proj2 (afm_acceptance_implies_vo_acceptance Samples.positiveFilter)).
    left. reflexivity.
Defined.

(** X10.  On every input, [isDateFilter] returns [true] exactly when
    [isAbsoluteDateFilter] or [isRelativeDateFilter] does, and
    [isAttributeFilter] exactly when [isPositiveAttributeFilter] does or the
    value is a non-empty object with a defined [negativeAttributeFilter];
    both return [false] otherwise and never raise. *)
Theorem group_guards_compose (x : JsValue) :
  (VisualizationObject.isDateFilter x = Ok true <->
   VisualizationObject.isAbsoluteDateFilter x = Ok true \/
   VisualizationObject.isRelativeDateFilter x = Ok true) /\
  (VisualizationObject.isAttributeFilter x = Ok true <->
   VisualizationObject.isPositiveAttributeFilter x = Ok true \/
   hasDefined x "negativeAttributeFilter") /\
  (VisualizationObject.isDateFilter x = Ok true \/
   VisualizationObject.isDateFilter x = Ok false) /\
  (VisualizationObject.isAttributeFilter x = Ok true \/
   VisualizationObject.isAttributeFilter x = Ok false).
Proof.
  rewrite (group_guard_spec "absoluteDateFilter" "relativeDateFilter"
             VisualizationObject.isDateFilter x)
    by (simpl; right; left; reflexivity).
  rewrite (group_guard_spec "positiveAttributeFilter" "negativeAttributeFilter"
             VisualizationObject.isAttributeFilter x)
    by (simpl; left; reflexivity).
  rewrite (marker_guard_spec "absoluteDateFilter"
             VisualizationObject.isAbsoluteDateFilter) by (simpl; tauto).
  rewrite (marker_guard_spec "relativeDateFilter"
             VisualizationObject.isRelativeDateFilter) by (simpl; tauto).
  rewrite (marker_guard_spec "positiveAttributeFilter"
             VisualizationObject.isPositiveAttributeFilter) by (simpl; tauto).
  rewrite (hasDefined_field x "negativeAttributeFilter").
  destruct (isSome (field x "absoluteDateFilter")),
    (isSome (field x "relativeDateFilter")),
    (isSome (field x "positiveAttributeFilter")),
    (isSome (field x "negativeAttributeFilter")); simpl;
    repeat split; try tauto;
    try (intros [H | H]; discriminate H);
    try (intros H; discriminate H).
Qed.

(** X11.  [isIdentifierInsight] and [isUriInsight] raise exactly on
    [null] and [undefined]; on every other input they return the field
    itself, which is truthy exactly when the input is an object whose
    field is truthy. *)
Theorem ref_guards_characterised
    (f : string) (g : JsValue -> result JsValue) (x : JsValue) :
  In (f, g) EmbeddedKpiDashboard.refGuards ->
  (g x = Throw TypeError <-> nullish x) /\
  (forall v, g x = Ok v -> (truthy v = true <-> hasTruthy x f)) /\
  (forall props w, x = JObj props -> lookup f props = Some w -> g x = Ok w).
Proof.
  intros Hin. destruct (ref_guard_spec f g Hin) as [Hk Hg]. rewrite Hg.
  split; [| split].
  - split.
    + intros Hthrow. destruct x; try (left; reflexivity); try (right; reflexivity);
        exfalso; simpl in Hthrow.
      * discriminate Hthrow.
      * discriminate Hthrow.
      * destruct Hk as [Hlen Hidx]. rewrite Hlen, Hidx in Hthrow. discriminate Hthrow.
      * destruct Hk as [Hlen Hidx]. rewrite Hlen, Hidx in Hthrow. discriminate Hthrow.
      * destruct (lookup f props); discriminate Hthrow.
    + intros [-> | ->]; reflexivity.
  - intros v Hv.
    assert (Hx : ~ nullish x).
    { intros [-> | ->]; discriminate Hv. }
    rewrite (getProp_field x f Hk Hx) in Hv. injection Hv as <-.
    rewrite (hasTruthy_field x f). unfold truthyField.
    destruct (field x f); [reflexivity |]. simpl. split; intros H; discriminate H.
  - intros props w -> Hl. simpl. rewrite Hl. reflexivity.
Qed.

Lemma ref_guards_characterised_witness :
  EmbeddedKpiDashboard.isUriInsight (JObj [("uri", JStr "")]) = Ok (JStr "") /\
  ~ hasTruthy (JObj [("uri", JStr "")]) "uri".
Proof.
  destruct (ref_guards_characterised
              "uri" EmbeddedKpiDashboard.isUriInsight (JObj [("uri", JStr "")]))
    as [_ [Htruthy Hfield]].
  - simpl. right. left. reflexivity.
  - assert (Hres : EmbeddedKpiDashboard.isUriInsight (JObj [("uri", JStr "")])
                   = Ok (JStr ""))
      by (apply (Hfield [("uri", JStr "")]); reflexivity).
    split; [exact Hres |].
    intros Ht. apply (Htruthy (JStr "") Hres) in Ht. discriminate Ht.
Defined.
